(** * OptaNative SMC client: a shallow embedding of SMC.c and SMC.h

    The development follows [OptaNative/SMC/SMC.c]: the key codec
    [SMCKeyToUInt32], the connection manager [SMCOpen] / [SMCClose], the key
    metadata query [SMCGetKeyInfo] and the key value reader [SMCReadKey].

    Conventions of the embedding.
    - Memory behind a [const char *] is the list of bytes readable through the
      pointer; reading past it is undefined behaviour, rendered as [None].
    - Fixed-width integers are [Z] with the wrap-around written out.
    - IOKit is the environment: every primitive is a field of the [IOKit]
      interface, acting on an abstract host world, and every call the module
      makes is appended to a trace so that "which calls were issued" is a
      property one can state. *)

From Stdlib Require Import ZArith Lia Strings.Byte Strings.String.
From stdpp Require Import base tactics option list.

Local Open Scope Z_scope.

(** ** C scalar types *)

(** Value of a byte read through an [unsigned char] or [uint8_t] lvalue. *)
Definition byte_value (b : byte) : Z := Z.of_N (Byte.to_N b).

(** Value of a byte read through a plain [char] lvalue.  Plain [char] is a
    signed 8-bit type on every target IOKit exists for (Apple x86_64 and
    Apple arm64), so bytes from 0x80 up read as negative numbers. *)
Definition char_value (b : byte) : Z :=
  if byte_value b <? 128 then byte_value b else byte_value b - 256.

(** The conversion [(uint32_t) e]: reduction modulo 2^32. *)
Definition to_uint32 (z : Z) : Z := z mod 2 ^ 32.

(** [e << n] at type [uint32_t]. *)
Definition shl32 (x n : Z) : Z := to_uint32 (Z.shiftl x n).

(** The byte whose unsigned value is [z] (for [0 <= z < 256]). *)
Definition byte_of_Z (z : Z) : byte :=
  match Byte.of_N (Z.to_N z) with
  | Some b => b
  | None => x00
  end.

(** [p[i]] for a pointer [p] into a readable region [buf]. *)
Definition char_at (buf : list byte) (i : nat) : option byte := buf !! i.

(** ** SMC.h *)

Definition SMC_KEY_DATA_SIZE : nat := 32.

Definition SMC_CMD_READ_BYTES : Z := 5.
Definition SMC_CMD_WRITE_BYTES : Z := 6.
Definition SMC_CMD_READ_KEYINFO : Z := 9.
Definition SMC_CMD_READ_PLIMIT : Z := 11.
Definition SMC_CMD_READ_VERS : Z := 12.
Definition SMC_CMD_READ_INDEX : Z := 8.

(** ** Key codec (SMC.c, lines 12-18) *)

(** [SMCKeyToUInt32(key)]: the four reads [key[0]] .. [key[3]], each converted
    from plain [char] to [uint32_t], shifted and or-ed together. *)
Definition SMCKeyToUInt32 (key : list byte) : option Z :=
  k0 ← char_at key 0;
  k1 ← char_at key 1;
  k2 ← char_at key 2;
  k3 ← char_at key 3;
  Some (Z.lor (Z.lor (Z.lor (shl32 (to_uint32 (char_value k0)) 24)
                            (shl32 (to_uint32 (char_value k1)) 16))
                     (shl32 (to_uint32 (char_value k2)) 8))
              (to_uint32 (char_value k3))).

(** The byte of a 32-bit value that sits at bits [8*i+7 .. 8*i]. *)
Definition uint32_byte (v : Z) (i : Z) : byte :=
  byte_of_Z (Z.land (Z.shiftr v (8 * i)) 255).

(** The four bytes of a 32-bit value, most significant first: the reading of
    an encoded key back as text that the round-trip law speaks of. *)
Definition UInt32ToKey (v : Z) : list byte :=
  [uint32_byte v 3; uint32_byte v 2; uint32_byte v 1; uint32_byte v 0].

(** A key all of whose bytes are 7-bit ASCII. *)
Definition is_ascii (b : byte) : Prop := byte_value b < 128.
Definition ascii_key (key : list byte) : Prop :=
  length key = 4%nat /\ Forall is_ascii key.


(** ** Records of SMC.h *)

Record SMCKeyData_vers_t := {
  vers_major : Z;
  vers_minor : Z;
  vers_build : Z;
  vers_reserved : list byte;
  vers_release : Z
}.

Record SMCKeyData_pLimitData_t := {
  pLimitData_version : Z;
  pLimitData_length : Z;
  pLimitData_cpuPLimit : Z;
  pLimitData_gpuPLimit : Z;
  pLimitData_memPLimit : Z
}.

Record SMCKeyData_keyInfo_t := {
  keyInfo_dataSize : Z;
  keyInfo_dataType : Z;
  keyInfo_dataAttributes : Z
}.

Record SMCKeyData_t := {
  data_key : Z;
  data_vers : SMCKeyData_vers_t;
  data_pLimitData : SMCKeyData_pLimitData_t;
  data_keyInfo : SMCKeyData_keyInfo_t;
  data_result : Z;
  data_status : Z;
  data_data8 : Z;
  data_data32 : Z;
  data_bytes : list byte
}.

Record SMCVal_t := {
  val_key : list byte;
  val_dataSize : Z;
  val_dataType : Z;
  val_bytes : list byte
}.

(** What [memset(&x, 0, sizeof(x))] leaves in each record. *)
Definition zero_vers : SMCKeyData_vers_t :=
  {| vers_major := 0; vers_minor := 0; vers_build := 0;
     vers_reserved := replicate 1 x00; vers_release := 0 |}.

Definition zero_pLimitData : SMCKeyData_pLimitData_t :=
  {| pLimitData_version := 0; pLimitData_length := 0; pLimitData_cpuPLimit := 0;
     pLimitData_gpuPLimit := 0; pLimitData_memPLimit := 0 |}.

Definition zero_keyInfo : SMCKeyData_keyInfo_t :=
  {| keyInfo_dataSize := 0; keyInfo_dataType := 0; keyInfo_dataAttributes := 0 |}.

Definition zero_SMCKeyData : SMCKeyData_t :=
  {| data_key := 0; data_vers := zero_vers; data_pLimitData := zero_pLimitData;
     data_keyInfo := zero_keyInfo; data_result := 0; data_status := 0;
     data_data8 := 0; data_data32 := 0;
     data_bytes := replicate SMC_KEY_DATA_SIZE x00 |}.

Definition zero_SMCVal : SMCVal_t :=
  {| val_key := replicate 5 x00; val_dataSize := 0; val_dataType := 0;
     val_bytes := replicate SMC_KEY_DATA_SIZE x00 |}.

(** Field assignments [x.f = v]. *)
Definition set_keyInfo_dataSize (v : Z) (k : SMCKeyData_keyInfo_t) :=
  {| keyInfo_dataSize := v; keyInfo_dataType := keyInfo_dataType k;
     keyInfo_dataAttributes := keyInfo_dataAttributes k |}.
Definition set_keyInfo_dataType (v : Z) (k : SMCKeyData_keyInfo_t) :=
  {| keyInfo_dataSize := keyInfo_dataSize k; keyInfo_dataType := v;
     keyInfo_dataAttributes := keyInfo_dataAttributes k |}.
Definition set_keyInfo_dataAttributes (v : Z) (k : SMCKeyData_keyInfo_t) :=
  {| keyInfo_dataSize := keyInfo_dataSize k; keyInfo_dataType := keyInfo_dataType k;
     keyInfo_dataAttributes := v |}.

Definition set_data_key (v : Z) (d : SMCKeyData_t) :=
  {| data_key := v; data_vers := data_vers d; data_pLimitData := data_pLimitData d;
     data_keyInfo := data_keyInfo d; data_result := data_result d;
     data_status := data_status d; data_data8 := data_data8 d;
     data_data32 := data_data32 d; data_bytes := data_bytes d |}.
Definition set_data_data8 (v : Z) (d : SMCKeyData_t) :=
  {| data_key := data_key d; data_vers := data_vers d;
     data_pLimitData := data_pLimitData d; data_keyInfo := data_keyInfo d;
     data_result := data_result d; data_status := data_status d; data_data8 := v;
     data_data32 := data_data32 d; data_bytes := data_bytes d |}.
Definition set_data_keyInfo (v : SMCKeyData_keyInfo_t) (d : SMCKeyData_t) :=
  {| data_key := data_key d; data_vers := data_vers d;
     data_pLimitData := data_pLimitData d; data_keyInfo := v;
     data_result := data_result d; data_status := data_status d;
     data_data8 := data_data8 d; data_data32 := data_data32 d;
     data_bytes := data_bytes d |}.

Definition set_val_key (v : list byte) (r : SMCVal_t) :=
  {| val_key := v; val_dataSize := val_dataSize r; val_dataType := val_dataType r;
     val_bytes := val_bytes r |}.
Definition set_val_dataSize (v : Z) (r : SMCVal_t) :=
  {| val_key := val_key r; val_dataSize := v; val_dataType := val_dataType r;
     val_bytes := val_bytes r |}.
Definition set_val_dataType (v : Z) (r : SMCVal_t) :=
  {| val_key := val_key r; val_dataSize := val_dataSize r; val_dataType := v;
     val_bytes := val_bytes r |}.
Definition set_val_bytes (v : list byte) (r : SMCVal_t) :=
  {| val_key := val_key r; val_dataSize := val_dataSize r;
     val_dataType := val_dataType r; val_bytes := v |}.

(** ** <string.h> *)

(** The [n] bytes [strncpy] stores: the characters of [src] up to its first
    NUL, then NUL padding.  [None] when the copy would read past [src]. *)
Fixpoint strncpy_bytes (src : list byte) (n : nat) {struct n}
  : option (list byte) :=
  match n with
  | O => Some []
  | S n' =>
      match src with
      | [] => None
      | c :: src' =>
          if Byte.eqb c x00 then Some (replicate (S n') x00)
          else cs ← strncpy_bytes src' n'; Some (c :: cs)
      end
  end.

(** [strncpy(dst, src, n)]: the new contents of [dst]. *)
Definition strncpy (dst src : list byte) (n : nat) : option (list byte) :=
  cs ← strncpy_bytes src n;
  if decide (n ≤ length dst)%nat then Some (cs ++ drop n dst) else None.

(** [memcpy(dst, src, n)]: the new contents of [dst]. *)
Definition memcpy (dst src : list byte) (n : nat) : list byte :=
  take n src ++ drop n dst.

(** [strlen(s)]: the index of the first NUL, if [s] is terminated. *)
Fixpoint strlen (s : list byte) : option nat :=
  match s with
  | [] => None
  | c :: s' => if Byte.eqb c x00 then Some O else S <$> strlen s'
  end.

(** ** The IOKit environment *)

Definition kern_return_t := Z.
Definition mach_port_t := Z.
Definition io_object_t := Z.
Definition io_service_t := Z.
Definition io_connect_t := Z.
Definition CFDictionaryRef := Z.

(** One entry per call into IOKit, with the arguments passed. *)
Inductive IOKitCall :=
  | Call_IOServiceMatching (name : string)
  | Call_IOServiceGetMatchingService (mainPort : mach_port_t) (matching : CFDictionaryRef)
  | Call_IOServiceOpen (service : io_service_t) (owningTask : mach_port_t) (type : Z)
  | Call_IOObjectRelease (object : io_object_t)
  | Call_IOServiceClose (connect : io_connect_t)
  | Call_IOConnectCallStructMethod (connection : io_connect_t) (selector : Z)
      (inputStruct : SMCKeyData_t) (inputStructCnt : Z)
      (outputStruct : SMCKeyData_t) (outputStructCnt : Z).

(** What SMC.c takes from its platform: the constants of the IOKit headers,
    the size the ABI gives [SMCKeyData_t], and the replies of the IOKit
    functions, each a function of the host's current world.  Out-parameters
    are passed in with their old contents and returned with the new ones. *)
Record IOKit (World : Type) := {
  kIOReturnSuccess : kern_return_t;
  kIOReturnNotFound : kern_return_t;
  kIOMainPortDefault : mach_port_t;
  mach_task_self_ : mach_port_t;
  sizeof_SMCKeyData_t : Z;
  host_IOServiceMatching : string -> World -> CFDictionaryRef * World;
  host_IOServiceGetMatchingService :
    mach_port_t -> CFDictionaryRef -> World -> io_service_t * World;
  host_IOServiceOpen :
    io_service_t -> mach_port_t -> Z -> io_connect_t -> World ->
    (kern_return_t * io_connect_t) * World;
  host_IOObjectRelease : io_object_t -> World -> kern_return_t * World;
  host_IOServiceClose : io_connect_t -> World -> kern_return_t * World;
  host_IOConnectCallStructMethod :
    io_connect_t -> Z -> SMCKeyData_t -> Z -> SMCKeyData_t -> Z -> World ->
    (kern_return_t * SMCKeyData_t * Z) * World
}.

Arguments kIOReturnSuccess {World} _.
Arguments kIOReturnNotFound {World} _.
Arguments kIOMainPortDefault {World} _.
Arguments mach_task_self_ {World} _.
Arguments sizeof_SMCKeyData_t {World} _.
Arguments host_IOServiceMatching {World} _ _ _.
Arguments host_IOServiceGetMatchingService {World} _ _ _ _.
Arguments host_IOServiceOpen {World} _ _ _ _ _ _.
Arguments host_IOObjectRelease {World} _ _ _.
Arguments host_IOServiceClose {World} _ _ _.
Arguments host_IOConnectCallStructMethod {World} _ _ _ _ _ _ _ _.

(** The state a run threads: the host's world and the calls made so far. *)
Record HostState (World : Type) := {
  world : World;
  trace : list IOKitCall
}.
Arguments Build_HostState {World} _ _.
Arguments world {World} _.
Arguments trace {World} _.

(** Computations over the host state; [None] is undefined behaviour. *)
Definition M (World A : Type) : Type :=
  HostState World -> option (A * HostState World).

#[global] Instance M_ret {World} : MRet (M World) :=
  fun A (a : A) s => Some (a, s).

#[global] Instance M_bind {World} : MBind (M World) :=
  fun A B (f : A -> M World B) (m : M World A) s =>
    match m s with
    | Some (a, s') => f a s'
    | None => None
    end.

(** A step with no effect on the host that may be undefined. *)
Definition defined {World A} (o : option A) : M World A :=
  fun s => match o with Some a => Some (a, s) | None => None end.

(** A call into IOKit: record it, let the host reply and move on. *)
Definition iokit_call {World A} (c : IOKitCall) (reply : World -> A * World)
  : M World A :=
  fun s =>
    let '(a, w) := reply (world s) in
    Some (a, {| world := w; trace := trace s ++ [c] |}).

Section SMC.

Context {World : Type} (host : IOKit World).

Definition IOServiceMatching (name : string) : M World CFDictionaryRef :=
  iokit_call (Call_IOServiceMatching name) (host_IOServiceMatching host name).

Definition IOServiceGetMatchingService (mainPort : mach_port_t)
    (matching : CFDictionaryRef) : M World io_service_t :=
  iokit_call (Call_IOServiceGetMatchingService mainPort matching)
             (host_IOServiceGetMatchingService host mainPort matching).

Definition IOServiceOpen (service : io_service_t) (owningTask : mach_port_t)
    (type : Z) (connect : io_connect_t) : M World (kern_return_t * io_connect_t) :=
  iokit_call (Call_IOServiceOpen service owningTask type)
             (host_IOServiceOpen host service owningTask type connect).

Definition IOObjectRelease (object : io_object_t) : M World kern_return_t :=
  iokit_call (Call_IOObjectRelease object) (host_IOObjectRelease host object).

Definition IOServiceClose (connect : io_connect_t) : M World kern_return_t :=
  iokit_call (Call_IOServiceClose connect) (host_IOServiceClose host connect).

Definition IOConnectCallStructMethod (connection : io_connect_t) (selector : Z)
    (inputStruct : SMCKeyData_t) (inputStructCnt : Z)
    (outputStruct : SMCKeyData_t) (outputStructCnt : Z)
  : M World (kern_return_t * SMCKeyData_t * Z) :=
  iokit_call
    (Call_IOConnectCallStructMethod connection selector inputStruct
       inputStructCnt outputStruct outputStructCnt)
    (host_IOConnectCallStructMethod host connection selector inputStruct
       inputStructCnt outputStruct outputStructCnt).

(** *** Connection manager (SMC.c, lines 20-43) *)

(** [SMCOpen(conn)]; [conn] is the old contents of [*conn], the second
    component of the result the new contents. *)
Definition SMCOpen (conn : io_connect_t) : M World (kern_return_t * io_connect_t) :=
  matching ← IOServiceMatching "AppleSMC";
  service ← IOServiceGetMatchingService (kIOMainPortDefault host) matching;
  if service =? 0 then
    mret (kIOReturnNotFound host, conn)
  else
    '(result, conn) ← IOServiceOpen service (mach_task_self_ host) 0 conn;
    _ ← IOObjectRelease service;
    mret (result, conn).

Definition SMCClose (conn : io_connect_t) : M World kern_return_t :=
  IOServiceClose conn.

(** *** Key metadata query (SMC.c, lines 45-74) *)

(** [SMCGetKeyInfo(conn, key, keyInfo)]; [keyInfo] is the old contents of
    [*keyInfo], the second component of the result the new contents. *)
Definition SMCGetKeyInfo (conn : io_connect_t) (key : Z)
    (keyInfo : SMCKeyData_keyInfo_t) : M World (kern_return_t * SMCKeyData_keyInfo_t) :=
  let inputSize := sizeof_SMCKeyData_t host in
  let outputSize := sizeof_SMCKeyData_t host in
  let inputData := zero_SMCKeyData in
  let outputData := zero_SMCKeyData in
  let inputData := set_data_key key inputData in
  let inputData := set_data_data8 SMC_CMD_READ_KEYINFO inputData in
  '(result, outputData, outputSize) ←
    IOConnectCallStructMethod conn 2 inputData inputSize outputData outputSize;
  let keyInfo :=
    if result =? kIOReturnSuccess host then
      let keyInfo :=
        set_keyInfo_dataSize (keyInfo_dataSize (data_keyInfo outputData)) keyInfo in
      let keyInfo :=
        set_keyInfo_dataType (keyInfo_dataType (data_keyInfo outputData)) keyInfo in
      set_keyInfo_dataAttributes
        (keyInfo_dataAttributes (data_keyInfo outputData)) keyInfo
    else keyInfo in
  mret (result, keyInfo).

(** *** Key value reader (SMC.c, lines 76-125) *)

(** [SMCReadKey(conn, key, val)]; [val] is the old contents of [*val], the
    second component of the result the new contents. *)
Definition SMCReadKey (conn : io_connect_t) (key : list byte) (val : SMCVal_t)
  : M World (kern_return_t * SMCVal_t) :=
  let inputSize := sizeof_SMCKeyData_t host in
  let outputSize := sizeof_SMCKeyData_t host in
  let inputData := zero_SMCKeyData in
  let outputData := zero_SMCKeyData in
  let keyInfo := zero_keyInfo in
  let val := zero_SMCVal in
  copied ← defined (strncpy (val_key val) key 4);
  let val := set_val_key copied val in
  let val := set_val_key (<[4%nat := x00]> (val_key val)) val in
  keyUInt ← defined (SMCKeyToUInt32 key);
  '(result, keyInfo) ← SMCGetKeyInfo conn keyUInt keyInfo;
  if negb (result =? kIOReturnSuccess host) then
    mret (result, val)
  else
    let val := set_val_dataSize (keyInfo_dataSize keyInfo) val in
    let val := set_val_dataType (keyInfo_dataType keyInfo) val in
    let inputData := set_data_key keyUInt inputData in
    let inputData := set_data_data8 SMC_CMD_READ_BYTES inputData in
    let inputData :=
      set_data_keyInfo
        (set_keyInfo_dataSize (keyInfo_dataSize keyInfo) (data_keyInfo inputData))
        inputData in
    '(result, outputData, outputSize) ←
      IOConnectCallStructMethod conn 2 inputData inputSize outputData outputSize;
    let val :=
      if result =? kIOReturnSuccess host then
        set_val_bytes
          (memcpy (val_bytes val) (data_bytes outputData) SMC_KEY_DATA_SIZE) val
      else val in
    mret (result, val).

End SMC.

(** ** A scripted host, for running the model on concrete inputs *)

Module Scripted.

(** The world of the scripted host: the handle service discovery yields
    (0 when no AppleSMC service is registered), the reply to a connection
    attempt, and the replies the service gives to the coming struct calls. *)
Record script := {
  service : io_service_t;
  open_reply : kern_return_t * io_connect_t;
  replies : list (kern_return_t * SMCKeyData_t)
}.

Definition success : kern_return_t := 0.
Definition not_found : kern_return_t := -536870160.
Definition error : kern_return_t := -536870212.

Definition call_struct (connection : io_connect_t) (selector : Z)
    (inputStruct : SMCKeyData_t) (inputStructCnt : Z)
    (outputStruct : SMCKeyData_t) (outputStructCnt : Z) (w : script)
  : (kern_return_t * SMCKeyData_t * Z) * script :=
  match replies w with
  | [] => ((error, outputStruct, outputStructCnt), w)
  | (r, out) :: rest =>
      ((r, out, outputStructCnt),
       {| service := service w; open_reply := open_reply w; replies := rest |})
  end.

Definition host : IOKit script := {|
  kIOReturnSuccess := success;
  kIOReturnNotFound := not_found;
  kIOMainPortDefault := 0;
  mach_task_self_ := 259;
  sizeof_SMCKeyData_t := 80;
  host_IOServiceMatching := fun _ w => (4096, w);
  host_IOServiceGetMatchingService := fun _ _ w => (service w, w);
  host_IOServiceOpen := fun _ _ _ _ w => (open_reply w, w);
  host_IOObjectRelease := fun _ w => (success, w);
  host_IOServiceClose := fun _ w => (success, w);
  host_IOConnectCallStructMethod := call_struct
|}.

(** A response record carrying the given key info and payload. *)
Definition response (size type : Z) (payload : list byte) : SMCKeyData_t :=
  {| data_key := 0; data_vers := zero_vers; data_pLimitData := zero_pLimitData;
     data_keyInfo := {| keyInfo_dataSize := size; keyInfo_dataType := type;
                        keyInfo_dataAttributes := 128 |};
     data_result := 0; data_status := 0; data_data8 := 0; data_data32 := 0;
     data_bytes := payload |}.

(** Thirty-two bytes, none of them zero. *)
Definition payload : list byte :=
  [x42; x28; x66; x66] ++ replicate 28 xaa.

Definition start (w : script) : HostState script := {| world := w; trace := [] |}.

(** Garbage a caller may have left in the output record. *)
Definition stale : SMCVal_t :=
  {| val_key := replicate 5 xff; val_dataSize := 77; val_dataType := 88;
     val_bytes := replicate 32 xee |}.

Definition stale_keyInfo : SMCKeyData_keyInfo_t :=
  {| keyInfo_dataSize := 7; keyInfo_dataType := 8; keyInfo_dataAttributes := 9 |}.

Definition no_service : script :=
  {| service := 0; open_reply := (success, 5); replies := [] |}.

Definition with_replies (rs : list (kern_return_t * SMCKeyData_t)) : script :=
  {| service := 2051; open_reply := (success, 5); replies := rs |}.

(** The key "TC0P" as a C string, a longer string, and the type tag
    "flt " of a four-byte float. *)
Definition TC0P : list byte := list_byte_of_string "TC0P" ++ [x00].
Definition TC0PXYZ : list byte := list_byte_of_string "TC0PXYZ" ++ [x00].
Definition flt : Z := 0x666c7420.

Definition info : SMCKeyData_keyInfo_t :=
  {| keyInfo_dataSize := 4; keyInfo_dataType := flt; keyInfo_dataAttributes := 128 |}.

(** Three runs: the metadata request is refused; the metadata request is
    answered and the read refused; both are answered.  Refused calls still
    leave a filled response record behind. *)
Definition metadata_fails : HostState script :=
  start (with_replies [(error, response 4 flt payload)]).

Definition read_fails : HostState script :=
  start (with_replies [(success, response 4 flt payload);
                       (error, response 4 flt payload)]).

Definition both_succeed : HostState script :=
  start (with_replies [(success, response 4 flt payload);
                       (success, response 4 flt payload)]).

End Scripted.


(** ** The two requests of the protocol *)

(** The record [SMCGetKeyInfo] sends: zeroed, then the encoded key and the
    metadata command. *)
Definition keyinfo_request (key : Z) : SMCKeyData_t :=
  {| data_key := key; data_vers := zero_vers; data_pLimitData := zero_pLimitData;
     data_keyInfo := zero_keyInfo; data_result := 0; data_status := 0;
     data_data8 := SMC_CMD_READ_KEYINFO; data_data32 := 0;
     data_bytes := replicate SMC_KEY_DATA_SIZE x00 |}.

(** The record [SMCReadKey] sends in its value-read phase: zeroed, then the
    encoded key, the read command and the data size the metadata gave. *)
Definition read_request (key : Z) (keyInfo : SMCKeyData_keyInfo_t) : SMCKeyData_t :=
  {| data_key := key; data_vers := zero_vers; data_pLimitData := zero_pLimitData;
     data_keyInfo := {| keyInfo_dataSize := keyInfo_dataSize keyInfo;
                        keyInfo_dataType := 0; keyInfo_dataAttributes := 0 |};
     data_result := 0; data_status := 0;
     data_data8 := SMC_CMD_READ_BYTES; data_data32 := 0;
     data_bytes := replicate SMC_KEY_DATA_SIZE x00 |}.

(** The trace entry of a struct call carrying [input], as SMC.c issues it:
    selector 2, a zeroed response record, both sizes [sizeof(SMCKeyData_t)]. *)
Definition struct_call {World} (host : IOKit World) (conn : io_connect_t)
    (input : SMCKeyData_t) : IOKitCall :=
  Call_IOConnectCallStructMethod conn 2 input (sizeof_SMCKeyData_t host)
    zero_SMCKeyData (sizeof_SMCKeyData_t host).

(** What the service answers to such a call in world [w]. *)
Definition service_reply {World} (host : IOKit World) (conn : io_connect_t)
    (input : SMCKeyData_t) (w : World)
  : (kern_return_t * SMCKeyData_t * Z) * World :=
  host_IOConnectCallStructMethod host conn 2 input (sizeof_SMCKeyData_t host)
    zero_SMCKeyData (sizeof_SMCKeyData_t host) w.

(** The encoded key a struct call carries. *)
Definition call_key (c : IOKitCall) : option Z :=
  match c with
  | Call_IOConnectCallStructMethod _ _ input _ _ _ => Some (data_key input)
  | _ => None
  end.

(** The state after one more call [c] that left the host in world [w]. *)
Definition after {World} (s : HostState World) (c : IOKitCall) (w : World)
  : HostState World :=
  {| world := w; trace := trace s ++ [c] |}.

(** ** Notions used to describe the codec and the connection manager *)

(** What the sign extension of a plain [char] puts into every byte above the
    one the character is shifted to: 0xFF for bytes from 0x80 up, else 0. *)
Definition sign_fill (b : byte) : Z :=
  if byte_value b <? 128 then 0 else 255.

(** A host on which the service is registered and refuses the connection. *)
Definition open_refused : Scripted.script :=
  {| Scripted.service := 2051;
     Scripted.open_reply := (Scripted.error, 99);
     Scripted.replies := [] |}.

(** * Properties *)

(** ** The model on concrete runs *)

Example SMCOpen_connects :
  SMCOpen Scripted.host 99 (Scripted.start (Scripted.with_replies [])) =
  Some (Scripted.success, 5,
        {| world := Scripted.with_replies [];
           trace := [Call_IOServiceMatching "AppleSMC";
                     Call_IOServiceGetMatchingService 0 4096;
                     Call_IOServiceOpen 2051 259 0;
                     Call_IOObjectRelease 2051] |}).
Proof. reflexivity. Qed.

Example SMCReadKey_reads_TC0P :
  fst <$> SMCReadKey Scripted.host 5 Scripted.TC0P Scripted.stale
            Scripted.both_succeed =
  Some (Scripted.success,
        {| val_key := list_byte_of_string "TC0P" ++ [x00];
           val_dataSize := 4; val_dataType := Scripted.flt;
           val_bytes := Scripted.payload |}).
Proof. reflexivity. Qed.

Example SMCReadKey_pads_short_string :
  (val_key ∘ snd ∘ fst) <$>
    SMCReadKey Scripted.host 5 [x54; x00; x30; x50] Scripted.stale
      Scripted.metadata_fails =
  Some [x54; x00; x00; x00; x00].
Proof. reflexivity. Qed.

Example SMCReadKey_unreadable_key :
  SMCReadKey Scripted.host 5 [x54; x43; x00] Scripted.stale Scripted.both_succeed
  = None.
Proof. reflexivity. Qed.

Example SMCGetKeyInfo_fills_record :
  fst <$> SMCGetKeyInfo Scripted.host 5 0x54433050 Scripted.stale_keyInfo
            Scripted.both_succeed =
  Some (Scripted.success, Scripted.info).
Proof. reflexivity. Qed.

(** ** Scalars and buffers *)

Lemma byte_value_range (b : byte) : 0 <= byte_value b < 256.
Proof.
  unfold byte_value. pose proof (Byte.to_N_bounded b). lia.
Qed.

Lemma byte_of_Z_value (b : byte) : byte_of_Z (byte_value b) = b.
Proof.
  unfold byte_of_Z, byte_value. rewrite N2Z.id, Byte.of_to_N. reflexivity.
Qed.

Lemma to_uint32_char_ascii (b : byte) :
  is_ascii b -> to_uint32 (char_value b) = byte_value b.
Proof.
  unfold is_ascii, to_uint32, char_value. intros Hb.
  pose proof (byte_value_range b).
  destruct (Z.ltb_spec (byte_value b) 128); [|lia].
  apply Z.mod_small. lia.
Qed.

(** Or-ing a value below [2^n] into a multiple of [2^n] adds it. *)
Lemma lor_high_low (hi lo n : Z) :
  0 <= n -> 0 <= lo < 2 ^ n -> Z.lor (hi * 2 ^ n) lo = hi * 2 ^ n + lo.
Proof.
  intros Hn Hlo.
  assert (Hand : Z.land (hi * 2 ^ n) lo = 0).
  { apply Z.bits_inj'. intros m Hm.
    rewrite Z.land_spec, Z.bits_0.
    destruct (Z.lt_ge_cases m n) as [Hlt|Hge].
    - rewrite Z.mul_pow2_bits_low by lia. reflexivity.
    - rewrite <- (Z.mod_small lo (2 ^ n)) by lia.
      rewrite Z.mod_pow2_bits_high by lia. apply andb_false_r. }
  rewrite Z.add_nocarry_lxor by exact Hand.
  symmetry. apply Z.lxor_lor. exact Hand.
Qed.

(** The packed value of four bytes whose conversions are below 256. *)
Lemma pack_small (a b c d : Z) :
  0 <= a < 256 -> 0 <= b < 256 -> 0 <= c < 256 -> 0 <= d < 256 ->
  Z.lor (Z.lor (Z.lor (shl32 a 24) (shl32 b 16)) (shl32 c 8)) d
  = a * 2 ^ 24 + b * 2 ^ 16 + c * 2 ^ 8 + d.
Proof.
  intros Ha Hb Hc Hd. unfold shl32, to_uint32.
  rewrite !Z.shiftl_mul_pow2 by lia.
  rewrite !Z.mod_small by lia.
  rewrite (lor_high_low a (b * 2 ^ 16) 24) by lia.
  replace (a * 2 ^ 24 + b * 2 ^ 16) with ((a * 2 ^ 8 + b) * 2 ^ 16) by lia.
  rewrite (lor_high_low (a * 2 ^ 8 + b) (c * 2 ^ 8) 16) by lia.
  replace ((a * 2 ^ 8 + b) * 2 ^ 16 + c * 2 ^ 8)
    with ((a * 2 ^ 16 + b * 2 ^ 8 + c) * 2 ^ 8) by lia.
  rewrite (lor_high_low _ d 8) by lia. lia.
Qed.

(** Reading the four bytes back out of a packed value. *)
Lemma unpack_small (a b c d : Z) :
  0 <= a < 256 -> 0 <= b < 256 -> 0 <= c < 256 -> 0 <= d < 256 ->
  let v := a * 2 ^ 24 + b * 2 ^ 16 + c * 2 ^ 8 + d in
  Z.land (Z.shiftr v (8 * 3)) 255 = a /\ Z.land (Z.shiftr v (8 * 2)) 255 = b /\
  Z.land (Z.shiftr v (8 * 1)) 255 = c /\ Z.land (Z.shiftr v (8 * 0)) 255 = d.
Proof.
  intros Ha Hb Hc Hd v. subst v.
  change 255 with (Z.ones 8).
  rewrite !Z.land_ones, !Z.shiftr_div_pow2 by lia.
  change (2 ^ (8 * 3)) with 16777216. change (2 ^ (8 * 2)) with 65536.
  change (2 ^ (8 * 1)) with 256. change (2 ^ (8 * 0)) with 1.
  change (2 ^ 24) with 16777216. change (2 ^ 16) with 65536.
  change (2 ^ 8) with 256.
  repeat split; Z.div_mod_to_equations; lia.
Qed.

Lemma SMCKeyToUInt32_cons4 (k0 k1 k2 k3 : byte) (rest : list byte) :
  SMCKeyToUInt32 (k0 :: k1 :: k2 :: k3 :: rest)
  = Some (Z.lor (Z.lor (Z.lor (shl32 (to_uint32 (char_value k0)) 24)
                              (shl32 (to_uint32 (char_value k1)) 16))
                       (shl32 (to_uint32 (char_value k2)) 8))
                (to_uint32 (char_value k3))).
Proof. reflexivity. Qed.

(** [SMCKeyToUInt32] is defined exactly when four bytes are readable. *)
Lemma SMCKeyToUInt32_defined (key : list byte) :
  is_Some (SMCKeyToUInt32 key) <-> (4 <= length key)%nat.
Proof.
  destruct key as [|k0 [|k1 [|k2 [|k3 rest]]]]; cbn; split; intros H;
    try (destruct H as [? H]; discriminate H); try lia; eauto.
Qed.

(** Only the first four bytes are read. *)
Lemma SMCKeyToUInt32_take (key : list byte) :
  SMCKeyToUInt32 (take 4 key) = SMCKeyToUInt32 key.
Proof.
  destruct key as [|k0 [|k1 [|k2 [|k3 rest]]]]; reflexivity.
Qed.

Lemma ascii_key_inv (key : list byte) :
  ascii_key key ->
  exists k0 k1 k2 k3,
    key = [k0; k1; k2; k3] /\ is_ascii k0 /\ is_ascii k1 /\ is_ascii k2 /\ is_ascii k3.
Proof.
  intros [Hlen Hall].
  destruct key as [|k0 [|k1 [|k2 [|k3 [|? ?]]]]]; try discriminate Hlen.
  exists k0, k1, k2, k3.
  repeat match goal with H : Forall _ (_ :: _) |- _ => inversion_clear H end.
  auto.
Qed.

(** On ASCII keys the encoding is the big-endian number and decodes back. *)
Lemma SMCKeyToUInt32_ascii (k0 k1 k2 k3 : byte) :
  is_ascii k0 -> is_ascii k1 -> is_ascii k2 -> is_ascii k3 ->
  let v := byte_value k0 * 2 ^ 24 + byte_value k1 * 2 ^ 16
           + byte_value k2 * 2 ^ 8 + byte_value k3 in
  SMCKeyToUInt32 [k0; k1; k2; k3] = Some v /\
  0 <= v < 2 ^ 31 /\
  UInt32ToKey v = [k0; k1; k2; k3].
Proof.
  intros H0 H1 H2 H3 v.
  pose proof (byte_value_range k0). pose proof (byte_value_range k1).
  pose proof (byte_value_range k2). pose proof (byte_value_range k3).
  split; [|split].
  - rewrite SMCKeyToUInt32_cons4, !to_uint32_char_ascii by assumption.
    rewrite pack_small by assumption. reflexivity.
  - unfold is_ascii in *. subst v. lia.
  - unfold UInt32ToKey, uint32_byte.
    destruct (unpack_small (byte_value k0) (byte_value k1) (byte_value k2)
                (byte_value k3)) as (E3 & E2 & E1 & E0); try assumption.
    fold v in E3, E2, E1, E0. rewrite E3, E2, E1, E0, !byte_of_Z_value.
    reflexivity.
Qed.

(** ** Key codec *)

(** C1.  Round-trip law of the key codec: for every key of four ASCII bytes
    (each in 0x00..0x7F), whatever follows it in memory, [SMCKeyToUInt32]
    returns a 32-bit value whose four bytes, read most significant first, are
    the key again; hence no other ASCII key has the same encoding. *)
Theorem SMCKeyToUInt32_roundtrip (key rest : list byte) :
  ascii_key key ->
  exists v,
    SMCKeyToUInt32 (key ++ rest) = Some v /\
    0 <= v < 2 ^ 32 /\
    UInt32ToKey v = key /\
    (forall key' rest',
        ascii_key key' -> SMCKeyToUInt32 (key' ++ rest') = Some v -> key' = key).
Proof.
  intros Hkey.
  destruct (ascii_key_inv key Hkey) as (k0 & k1 & k2 & k3 & -> & A0 & A1 & A2 & A3).
  destruct (SMCKeyToUInt32_ascii k0 k1 k2 k3 A0 A1 A2 A3) as (Henc & Hv & Hdec).
  eexists. split; [exact Henc|]. split; [lia|]. split; [exact Hdec|].
  intros key' rest' Hkey' Henc'.
  destruct (ascii_key_inv key' Hkey') as (j0 & j1 & j2 & j3 & -> & B0 & B1 & B2 & B3).
  destruct (SMCKeyToUInt32_ascii j0 j1 j2 j3 B0 B1 B2 B3) as (Henc2 & _ & Hdec2).
  change (SMCKeyToUInt32 ([j0; j1; j2; j3] ++ rest'))
    with (SMCKeyToUInt32 [j0; j1; j2; j3]) in Henc'.
  rewrite Henc2 in Henc'. injection Henc' as Hv'.
  rewrite <- Hdec2, Hv'. exact Hdec.
Qed.

Lemma SMCKeyToUInt32_roundtrip_witness :
  ascii_key (list_byte_of_string "TC0P") /\
  exists v,
    SMCKeyToUInt32 (list_byte_of_string "TC0P" ++ [x00]) = Some v /\
    0 <= v < 2 ^ 32 /\
    UInt32ToKey v = list_byte_of_string "TC0P" /\
    (forall key' rest',
        ascii_key key' -> SMCKeyToUInt32 (key' ++ rest') = Some v ->
        key' = list_byte_of_string "TC0P").
Proof.
  assert (H : ascii_key (list_byte_of_string "TC0P")).
  { split; [reflexivity|]. repeat constructor. }
  split; [exact H|].
  apply (SMCKeyToUInt32_roundtrip (list_byte_of_string "TC0P") [x00] H).
Defined.

(** C9.  The key "TC0P" encodes to 0x54433050, whatever follows its four
    characters in memory. *)
Theorem SMCKeyToUInt32_TC0P (rest : list byte) :
  SMCKeyToUInt32 (list_byte_of_string "TC0P" ++ rest) = Some 0x54433050.
Proof. reflexivity. Qed.

(** C4.  The claim is that any four bytes, also bytes from 0x80 up, are
    packed verbatim: byte 0 in bits 31-24, byte 1 in bits 23-16, byte 2 in
    bits 15-8, byte 3 in bits 7-0.  The code does not do so.  On the key
    0x54 0xC3 0xA9 0x30 (the UTF-8 text "Te0" with an acute accent on the e)
    the sign extension of [key[1]] and [key[2]] overwrites bits 31-16: the
    two leading bytes of the result are 0xFF 0xFF, not 0x54 0xC3, and the
    result is not the verbatim packing 0x54C3A930. *)
Theorem SMCKeyToUInt32_sign_extension :
  SMCKeyToUInt32 [x54; xc3; xa9; x30] = Some 0xFFFFA930 /\
  UInt32ToKey 0xFFFFA930 = [xff; xff; xa9; x30] /\
  0xFFFFA930 <> 0x54C3A930.
Proof. repeat split. discriminate. Qed.

(** The leading byte is placed verbatim whatever its value: its sign
    extension is shifted out.  Only bytes 1..3 can overwrite their
    neighbours. *)
Lemma shl32_char_24 (b : byte) :
  shl32 (to_uint32 (char_value b)) 24 = byte_value b * 2 ^ 24.
Proof.
  unfold shl32, to_uint32, char_value.
  pose proof (byte_value_range b) as Hb.
  rewrite Z.shiftl_mul_pow2 by lia.
  change (2 ^ 32) with 4294967296. change (2 ^ 24) with 16777216.
  destruct (Z.ltb_spec (byte_value b) 128).
  - rewrite (Z.mod_small (byte_value b)) by lia. apply Z.mod_small. lia.
  - replace ((byte_value b - 256) mod 4294967296)
      with (byte_value b + 4294967040)
      by (apply Z.mod_unique with (q := -1); lia).
    symmetry. apply Z.mod_unique with (q := 16777215); lia.
Qed.

Lemma SMCKeyToUInt32_ascii_tail (k0 k1 k2 k3 : byte) (rest : list byte) :
  is_ascii k1 -> is_ascii k2 -> is_ascii k3 ->
  SMCKeyToUInt32 (k0 :: k1 :: k2 :: k3 :: rest)
  = Some (byte_value k0 * 2 ^ 24 + byte_value k1 * 2 ^ 16
          + byte_value k2 * 2 ^ 8 + byte_value k3).
Proof.
  intros H1 H2 H3.
  pose proof (byte_value_range k0). pose proof (byte_value_range k1).
  pose proof (byte_value_range k2). pose proof (byte_value_range k3).
  rewrite SMCKeyToUInt32_cons4, shl32_char_24.
  rewrite !to_uint32_char_ascii by assumption.
  rewrite <- (pack_small (byte_value k0)) by assumption.
  unfold shl32 at 3, to_uint32.
  rewrite Z.shiftl_mul_pow2, Z.mod_small by lia. reflexivity.
Qed.

(** ** Buffers *)

Lemma strncpy_bytes_defined (src : list byte) (n : nat) :
  (n <= length src)%nat ->
  exists cs, strncpy_bytes src n = Some cs /\ length cs = n.
Proof.
  revert src. induction n as [|n IH]; intros src Hlen.
  - exists []. split; reflexivity.
  - destruct src as [|c src]; [simpl in Hlen; lia|].
    simpl. destruct (Byte.eqb c x00).
    + eexists. split; [reflexivity|]. simpl. rewrite length_replicate. reflexivity.
    + destruct (IH src) as (cs & -> & Hcs); [simpl in Hlen; lia|].
      exists (c :: cs). split; [reflexivity|]. simpl. congruence.
Qed.

(** A string at least [n] characters long is copied without padding. *)
Lemma strncpy_bytes_long (src : list byte) (n len : nat) :
  strlen src = Some len -> (n <= len)%nat -> strncpy_bytes src n = Some (take n src).
Proof.
  revert src len. induction n as [|n IH]; intros src len Hs Hn.
  - reflexivity.
  - destruct src as [|c src]; [discriminate Hs|].
    simpl in Hs |- *. destruct (Byte.eqb c x00).
    + injection Hs as <-. lia.
    + destruct (strlen src) as [len'|] eqn:E; [|discriminate Hs].
      injection Hs as <-. rewrite (IH src len') by (auto; lia). reflexivity.
Qed.

Lemma strlen_le_length (s : list byte) (len : nat) :
  strlen s = Some len -> (len < length s)%nat.
Proof.
  revert len. induction s as [|c s IH]; intros len H; [discriminate H|].
  simpl in H |- *. destruct (Byte.eqb c x00).
  - injection H as <-. lia.
  - destruct (strlen s) as [len'|]; [|discriminate H].
    injection H as <-. specialize (IH len' eq_refl). lia.
Qed.

(** The key field [SMCReadKey] leaves behind: the four bytes [strncpy]
    stores, then the terminator. *)
Lemma key_field_copy (key cs : list byte) :
  strncpy_bytes key 4 = Some cs -> length cs = 4%nat ->
  exists kf,
    strncpy (val_key zero_SMCVal) key 4 = Some kf /\
    <[4%nat := x00]> kf = cs ++ [x00].
Proof.
  intros Hcs Hlen. unfold strncpy. rewrite Hcs. simpl.
  eexists. split; [reflexivity|].
  destruct cs as [|? [|? [|? [|? [|? ?]]]]]; try discriminate Hlen. reflexivity.
Qed.

(** ** Running the two queries *)

Section Runs.

Context {World : Type} (host : IOKit World).

(** [SMCGetKeyInfo] is one struct call; its reply decides the output. *)
Lemma SMCGetKeyInfo_run (conn : io_connect_t) (key : Z)
    (keyInfo : SMCKeyData_keyInfo_t) (s : HostState World) :
  SMCGetKeyInfo host conn key keyInfo s =
  let '(r, out, _, w) := service_reply host conn (keyinfo_request key) (world s) in
  Some (r,
        if r =? kIOReturnSuccess host then data_keyInfo out else keyInfo,
        after s (struct_call host conn (keyinfo_request key)) w).
Proof.
  unfold SMCGetKeyInfo, IOConnectCallStructMethod, iokit_call, service_reply.
  unfold mbind, M_bind, mret, M_ret.
  change (set_data_data8 SMC_CMD_READ_KEYINFO (set_data_key key zero_SMCKeyData))
    with (keyinfo_request key).
  destruct (host_IOConnectCallStructMethod _ _ _ _ _ _ _ _) as [[[r out] sz] w].
  destruct (r =? kIOReturnSuccess host); [|reflexivity].
  destruct out as [? ? ? [? ? ?] ? ? ? ? ?]. reflexivity.
Qed.

(** [SMCReadKey] on a readable key: the metadata query, then, if it
    succeeded, the value-read call. *)
Lemma SMCReadKey_run (conn : io_connect_t) (key : list byte) (val : SMCVal_t)
    (s : HostState World) (k : Z) (cs : list byte) :
  SMCKeyToUInt32 key = Some k ->
  strncpy_bytes key 4 = Some cs -> length cs = 4%nat ->
  SMCReadKey host conn key val s =
  match SMCGetKeyInfo host conn k zero_keyInfo s with
  | None => None
  | Some (r1, ki, s1) =>
      if negb (r1 =? kIOReturnSuccess host) then
        Some (r1,
              {| val_key := cs ++ [x00]; val_dataSize := 0; val_dataType := 0;
                 val_bytes := replicate SMC_KEY_DATA_SIZE x00 |},
              s1)
      else
        let '(r2, out2, _, w2) :=
          service_reply host conn (read_request k ki) (world s1) in
        Some (r2,
              {| val_key := cs ++ [x00];
                 val_dataSize := keyInfo_dataSize ki;
                 val_dataType := keyInfo_dataType ki;
                 val_bytes :=
                   if r2 =? kIOReturnSuccess host
                   then take SMC_KEY_DATA_SIZE (data_bytes out2)
                   else replicate SMC_KEY_DATA_SIZE x00 |},
              after s1 (struct_call host conn (read_request k ki)) w2)
  end.
Proof.
  intros Hk Hcs Hlen.
  destruct (key_field_copy key cs Hcs Hlen) as (kf & Hkf & Hterm).
  unfold SMCReadKey.
  unfold mbind at 1, M_bind at 1, defined at 1. rewrite Hkf.
  unfold mbind at 1, M_bind at 1, defined at 1. rewrite Hk.
  unfold mbind at 1, M_bind at 1.
  destruct (SMCGetKeyInfo host conn k zero_keyInfo s) as [[[r1 ki] s1]|];
    [|reflexivity].
  cbn [set_val_key val_key]. rewrite Hterm.
  destruct (negb (r1 =? kIOReturnSuccess host)); [reflexivity|].
  unfold IOConnectCallStructMethod, iokit_call, service_reply.
  unfold mbind, M_bind, mret, M_ret.
  change (set_data_keyInfo _ _) with (read_request k ki).
  destruct (host_IOConnectCallStructMethod _ _ _ _ _ _ _ _) as [[[r2 out2] sz2] w2].
  destruct (r2 =? kIOReturnSuccess host); [|reflexivity].
  unfold memcpy, set_val_bytes. cbn [val_bytes val_key val_dataSize val_dataType
    set_val_dataType set_val_dataSize set_val_key zero_SMCVal].
  replace (drop SMC_KEY_DATA_SIZE (replicate SMC_KEY_DATA_SIZE x00))
    with (@nil byte) by reflexivity.
  rewrite app_nil_r. reflexivity.
Qed.

End Runs.

(** ** Connection manager, metadata query and value reader *)

Section Claims.

Context {World : Type} (host : IOKit World).

(** C8.  When service discovery yields the null handle, [SMCOpen] returns
    [kIOReturnNotFound], leaves the caller's connection slot as it was, and
    has called IOKit twice only, for the matching dictionary and for the
    discovery: no [IOServiceOpen] (and no release) is issued. *)
Theorem SMCOpen_service_not_found (conn : io_connect_t) (s : HostState World)
    (matching : CFDictionaryRef) (w1 w2 : World) :
  host_IOServiceMatching host "AppleSMC" (world s) = (matching, w1) ->
  host_IOServiceGetMatchingService host (kIOMainPortDefault host) matching w1
    = (0, w2) ->
  SMCOpen host conn s =
  Some (kIOReturnNotFound host, conn,
        {| world := w2;
           trace := trace s ++
             [Call_IOServiceMatching "AppleSMC";
              Call_IOServiceGetMatchingService (kIOMainPortDefault host)
                matching] |}).
Proof.
  intros Hm Hs.
  unfold SMCOpen, IOServiceMatching, IOServiceGetMatchingService, iokit_call.
  unfold mbind, M_bind, mret, M_ret.
  rewrite Hm. cbn [world trace]. rewrite Hs. cbn [Z.eqb].
  rewrite <- app_assoc. reflexivity.
Qed.

(** C7.  When the service answers the metadata request with a status other
    than success, [SMCGetKeyInfo] returns that status and the caller's
    record unchanged, whatever it held. *)
Theorem SMCGetKeyInfo_failure (conn : io_connect_t) (key : Z)
    (keyInfo : SMCKeyData_keyInfo_t) (s : HostState World)
    (r : kern_return_t) (out : SMCKeyData_t) (sz : Z) (w : World) :
  service_reply host conn (keyinfo_request key) (world s) = (r, out, sz, w) ->
  r <> kIOReturnSuccess host ->
  SMCGetKeyInfo host conn key keyInfo s =
  Some (r, keyInfo, after s (struct_call host conn (keyinfo_request key)) w).
Proof.
  intros Hreply Hr. rewrite SMCGetKeyInfo_run, Hreply.
  apply Z.eqb_neq in Hr. rewrite Hr. reflexivity.
Qed.

(** C2.  When the metadata query fails, [SMCReadKey] returns its status,
    the only call issued is the metadata request, and the output record is
    zero in [dataSize], [dataType] and all 32 bytes of the buffer, whatever
    the caller had left in it. *)
Theorem SMCReadKey_metadata_failure (conn : io_connect_t) (key : list byte)
    (val : SMCVal_t) (s s1 : HostState World) (k : Z) (r : kern_return_t)
    (ki : SMCKeyData_keyInfo_t) :
  SMCKeyToUInt32 key = Some k ->
  SMCGetKeyInfo host conn k zero_keyInfo s = Some (r, ki, s1) ->
  r <> kIOReturnSuccess host ->
  exists kf,
    SMCReadKey host conn key val s =
    Some (r,
          {| val_key := kf; val_dataSize := 0; val_dataType := 0;
             val_bytes := replicate SMC_KEY_DATA_SIZE x00 |},
          s1) /\
    trace s1 = trace s ++ [struct_call host conn (keyinfo_request k)].
Proof.
  intros Hk Hinfo Hr.
  assert (Hlen : (4 <= length key)%nat)
    by (apply SMCKeyToUInt32_defined; eauto).
  destruct (strncpy_bytes_defined key 4 Hlen) as (cs & Hcs & Hcslen).
  exists (cs ++ [x00]). split.
  - rewrite (SMCReadKey_run host conn key val s k cs Hk Hcs Hcslen), Hinfo.
    apply Z.eqb_neq in Hr. rewrite Hr. reflexivity.
  - rewrite SMCGetKeyInfo_run in Hinfo.
    destruct (service_reply _ _ _ _) as [[[r' out] sz] w].
    injection Hinfo as _ _ <-. reflexivity.
Qed.

(** C3.  When the metadata query succeeds and the service answers the
    value-read request with a status other than success, [SMCReadKey]
    returns that status and the output record carries the [dataSize] and
    [dataType] of the metadata. *)
Theorem SMCReadKey_read_failure_metadata (conn : io_connect_t)
    (key : list byte) (val : SMCVal_t) (s s1 : HostState World) (k : Z)
    (ki : SMCKeyData_keyInfo_t) (r2 : kern_return_t) (out2 : SMCKeyData_t)
    (sz2 : Z) (w2 : World) :
  SMCKeyToUInt32 key = Some k ->
  SMCGetKeyInfo host conn k zero_keyInfo s = Some (kIOReturnSuccess host, ki, s1) ->
  service_reply host conn (read_request k ki) (world s1) = (r2, out2, sz2, w2) ->
  r2 <> kIOReturnSuccess host ->
  exists val',
    SMCReadKey host conn key val s =
    Some (r2, val', after s1 (struct_call host conn (read_request k ki)) w2) /\
    val_dataSize val' = keyInfo_dataSize ki /\
    val_dataType val' = keyInfo_dataType ki.
Proof.
  intros Hk Hinfo Hreply Hr2.
  assert (Hlen : (4 <= length key)%nat)
    by (apply SMCKeyToUInt32_defined; eauto).
  destruct (strncpy_bytes_defined key 4 Hlen) as (cs & Hcs & Hcslen).
  rewrite (SMCReadKey_run host conn key val s k cs Hk Hcs Hcslen), Hinfo.
  rewrite Z.eqb_refl. cbn [negb]. rewrite Hreply.
  eexists. split; [reflexivity|]. split; reflexivity.
Qed.

(** C10.  In the same situation (metadata query succeeded, value read
    failed) the 32-byte buffer of the output record is all zero: nothing of
    the failed response, nor of what the caller left there, reaches it. *)
Theorem SMCReadKey_read_failure_bytes (conn : io_connect_t)
    (key : list byte) (val : SMCVal_t) (s s1 : HostState World) (k : Z)
    (ki : SMCKeyData_keyInfo_t) (r2 : kern_return_t) (out2 : SMCKeyData_t)
    (sz2 : Z) (w2 : World) :
  SMCKeyToUInt32 key = Some k ->
  SMCGetKeyInfo host conn k zero_keyInfo s = Some (kIOReturnSuccess host, ki, s1) ->
  service_reply host conn (read_request k ki) (world s1) = (r2, out2, sz2, w2) ->
  r2 <> kIOReturnSuccess host ->
  exists val',
    SMCReadKey host conn key val s =
    Some (r2, val', after s1 (struct_call host conn (read_request k ki)) w2) /\
    val_bytes val' = replicate SMC_KEY_DATA_SIZE x00.
Proof.
  intros Hk Hinfo Hreply Hr2.
  assert (Hlen : (4 <= length key)%nat)
    by (apply SMCKeyToUInt32_defined; eauto).
  destruct (strncpy_bytes_defined key 4 Hlen) as (cs & Hcs & Hcslen).
  rewrite (SMCReadKey_run host conn key val s k cs Hk Hcs Hcslen), Hinfo.
  rewrite Z.eqb_refl. cbn [negb]. rewrite Hreply.
  eexists. split; [reflexivity|]. cbn [val_bytes].
  apply Z.eqb_neq in Hr2. rewrite Hr2. reflexivity.
Qed.

(** C6.  When both calls succeed, the buffer of the output record is the
    whole 32-byte buffer of the value-read response, byte for byte, whatever
    [dataSize] the metadata gave and whatever the caller had left in the
    output record. *)
Theorem SMCReadKey_success_bytes (conn : io_connect_t) (key : list byte)
    (val : SMCVal_t) (s s1 : HostState World) (k : Z)
    (ki : SMCKeyData_keyInfo_t) (out2 : SMCKeyData_t) (sz2 : Z) (w2 : World) :
  SMCKeyToUInt32 key = Some k ->
  SMCGetKeyInfo host conn k zero_keyInfo s = Some (kIOReturnSuccess host, ki, s1) ->
  service_reply host conn (read_request k ki) (world s1)
    = (kIOReturnSuccess host, out2, sz2, w2) ->
  length (data_bytes out2) = SMC_KEY_DATA_SIZE ->
  exists val',
    SMCReadKey host conn key val s =
    Some (kIOReturnSuccess host, val',
          after s1 (struct_call host conn (read_request k ki)) w2) /\
    val_bytes val' = data_bytes out2 /\
    (forall i, val_bytes val' !! i = data_bytes out2 !! i).
Proof.
  intros Hk Hinfo Hreply Hout.
  assert (Hlen : (4 <= length key)%nat)
    by (apply SMCKeyToUInt32_defined; eauto).
  destruct (strncpy_bytes_defined key 4 Hlen) as (cs & Hcs & Hcslen).
  rewrite (SMCReadKey_run host conn key val s k cs Hk Hcs Hcslen), Hinfo.
  rewrite Z.eqb_refl. cbn [negb]. rewrite Hreply.
  eexists. split; [reflexivity|]. cbn [val_bytes].
  rewrite Z.eqb_refl, <- Hout, firstn_all. split; [reflexivity|]. reflexivity.
Qed.

(** C5.  For a key string longer than four characters, [SMCReadKey] leaves
    in the key field the first four characters and a terminator, and every
    struct call it issues (the metadata request, and the value-read request
    when the metadata query succeeds) carries the encoding of those four
    bytes. *)
Theorem SMCReadKey_long_key (conn : io_connect_t) (key : list byte)
    (val : SMCVal_t) (s : HostState World) (len : nat) :
  strlen key = Some len -> (4 < len)%nat ->
  exists k r1 ki s1 r val' s',
    SMCKeyToUInt32 (take 4 key) = Some k /\
    SMCGetKeyInfo host conn k zero_keyInfo s = Some (r1, ki, s1) /\
    SMCReadKey host conn key val s = Some (r, val', s') /\
    val_key val' = take 4 key ++ [x00] /\
    trace s' = trace s ++
      struct_call host conn (keyinfo_request k) ::
      (if r1 =? kIOReturnSuccess host
       then [struct_call host conn (read_request k ki)] else []) /\
    Forall (fun c => call_key c = Some k) (drop (length (trace s)) (trace s')).
Proof.
  intros Hstr Hlong.
  pose proof (strlen_le_length key len Hstr) as Hlen.
  assert (Hcs : strncpy_bytes key 4 = Some (take 4 key))
    by (apply (strncpy_bytes_long key 4 len Hstr); lia).
  assert (Hcslen : length (take 4 key) = 4%nat)
    by (rewrite length_take; lia).
  destruct (proj2 (SMCKeyToUInt32_defined key)) as [k Hk]; [lia|].
  exists k.
  rewrite (SMCReadKey_run host conn key val s k _ Hk Hcs Hcslen).
  rewrite SMCKeyToUInt32_take, SMCGetKeyInfo_run.
  destruct (service_reply host conn (keyinfo_request k) (world s))
    as [[[r1 out1] sz1] w1].
  set (ki := if r1 =? kIOReturnSuccess host then data_keyInfo out1 else zero_keyInfo).
  exists r1, ki.
  destruct (r1 =? kIOReturnSuccess host) eqn:Er1; cbn [negb].
  - destruct (service_reply host conn (read_request k ki) _)
      as [[[r2 out2] sz2] w2].
    do 4 eexists. split; [exact Hk|]. split; [reflexivity|].
    split; [reflexivity|]. split; [reflexivity|].
    cbn [after trace world]. rewrite <- app_assoc. split; [reflexivity|].
    rewrite drop_app_length. repeat constructor.
  - do 4 eexists. split; [exact Hk|]. split; [reflexivity|].
    split; [reflexivity|]. split; [reflexivity|].
    cbn [after trace world]. split; [reflexivity|].
    rewrite drop_app_length. repeat constructor.
Qed.

End Claims.

(** ** The claims on concrete runs *)

Lemma SMCOpen_service_not_found_witness :
  SMCOpen Scripted.host 99 (Scripted.start Scripted.no_service) =
  Some (Scripted.not_found, 99,
        {| world := Scripted.no_service;
           trace := [Call_IOServiceMatching "AppleSMC";
                     Call_IOServiceGetMatchingService 0 4096] |}).
Proof.
  apply (SMCOpen_service_not_found Scripted.host 99
           (Scripted.start Scripted.no_service) 4096
           Scripted.no_service Scripted.no_service); reflexivity.
Defined.

Lemma SMCGetKeyInfo_failure_witness :
  (Scripted.error <> Scripted.success) /\
  (SMCGetKeyInfo Scripted.host 5 0x54433050 Scripted.stale_keyInfo
     Scripted.metadata_fails =
   Some (Scripted.error, Scripted.stale_keyInfo,
         after Scripted.metadata_fails
           (struct_call Scripted.host 5 (keyinfo_request 0x54433050))
           (Scripted.with_replies []))).
Proof.
  assert (H : Scripted.error <> Scripted.success) by (vm_compute; lia).
  split; [exact H|].
  apply (SMCGetKeyInfo_failure Scripted.host 5 0x54433050 Scripted.stale_keyInfo
           Scripted.metadata_fails Scripted.error
           (Scripted.response 4 Scripted.flt Scripted.payload) 80
           (Scripted.with_replies [])); [reflexivity | exact H].
Defined.

Lemma SMCReadKey_metadata_failure_witness :
  exists kf,
    SMCReadKey Scripted.host 5 Scripted.TC0P Scripted.stale Scripted.metadata_fails =
    Some (Scripted.error,
          {| val_key := kf; val_dataSize := 0; val_dataType := 0;
             val_bytes := replicate SMC_KEY_DATA_SIZE x00 |},
          after Scripted.metadata_fails
            (struct_call Scripted.host 5 (keyinfo_request 0x54433050))
            (Scripted.with_replies [])) /\
    trace (after Scripted.metadata_fails
             (struct_call Scripted.host 5 (keyinfo_request 0x54433050))
             (Scripted.with_replies []))
    = trace Scripted.metadata_fails
      ++ [struct_call Scripted.host 5 (keyinfo_request 0x54433050)].
Proof.
  apply (SMCReadKey_metadata_failure Scripted.host 5 Scripted.TC0P Scripted.stale
           Scripted.metadata_fails _ 0x54433050 Scripted.error zero_keyInfo);
    [reflexivity | reflexivity | vm_compute; lia].
Defined.

Lemma SMCReadKey_read_failure_metadata_witness :
  exists val',
    SMCReadKey Scripted.host 5 Scripted.TC0P Scripted.stale Scripted.read_fails =
    Some (Scripted.error, val',
          after
            (after Scripted.read_fails
               (struct_call Scripted.host 5 (keyinfo_request 0x54433050))
               (Scripted.with_replies
                  [(Scripted.error,
                    Scripted.response 4 Scripted.flt Scripted.payload)]))
            (struct_call Scripted.host 5 (read_request 0x54433050 Scripted.info))
            (Scripted.with_replies [])) /\
    val_dataSize val' = 4 /\
    val_dataType val' = Scripted.flt.
Proof.
  apply (SMCReadKey_read_failure_metadata Scripted.host 5 Scripted.TC0P
           Scripted.stale Scripted.read_fails _ 0x54433050 Scripted.info
           Scripted.error (Scripted.response 4 Scripted.flt Scripted.payload) 80
           (Scripted.with_replies []));
    [reflexivity | reflexivity | reflexivity | vm_compute; lia].
Defined.

Lemma SMCReadKey_read_failure_bytes_witness :
  exists val',
    SMCReadKey Scripted.host 5 Scripted.TC0P Scripted.stale Scripted.read_fails =
    Some (Scripted.error, val',
          after
            (after Scripted.read_fails
               (struct_call Scripted.host 5 (keyinfo_request 0x54433050))
               (Scripted.with_replies
                  [(Scripted.error,
                    Scripted.response 4 Scripted.flt Scripted.payload)]))
            (struct_call Scripted.host 5 (read_request 0x54433050 Scripted.info))
            (Scripted.with_replies [])) /\
    val_bytes val' = replicate SMC_KEY_DATA_SIZE x00.
Proof.
  apply (SMCReadKey_read_failure_bytes Scripted.host 5 Scripted.TC0P
           Scripted.stale Scripted.read_fails _ 0x54433050 Scripted.info
           Scripted.error (Scripted.response 4 Scripted.flt Scripted.payload) 80
           (Scripted.with_replies []));
    [reflexivity | reflexivity | reflexivity | vm_compute; lia].
Defined.

Lemma SMCReadKey_success_bytes_witness :
  exists val',
    SMCReadKey Scripted.host 5 Scripted.TC0P Scripted.stale Scripted.both_succeed =
    Some (Scripted.success, val',
          after
            (after Scripted.both_succeed
               (struct_call Scripted.host 5 (keyinfo_request 0x54433050))
               (Scripted.with_replies
                  [(Scripted.success,
                    Scripted.response 4 Scripted.flt Scripted.payload)]))
            (struct_call Scripted.host 5 (read_request 0x54433050 Scripted.info))
            (Scripted.with_replies [])) /\
    val_bytes val' = Scripted.payload /\
    (forall i, val_bytes val' !! i = Scripted.payload !! i).
Proof.
  apply (SMCReadKey_success_bytes Scripted.host 5 Scripted.TC0P
           Scripted.stale Scripted.both_succeed _ 0x54433050 Scripted.info
           (Scripted.response 4 Scripted.flt Scripted.payload) 80
           (Scripted.with_replies []));
    reflexivity.
Defined.

Lemma SMCReadKey_long_key_witness :
  exists k r1 ki s1 r val' s',
    SMCKeyToUInt32 (take 4 Scripted.TC0PXYZ) = Some k /\
    SMCGetKeyInfo Scripted.host 5 k zero_keyInfo Scripted.both_succeed
      = Some (r1, ki, s1) /\
    SMCReadKey Scripted.host 5 Scripted.TC0PXYZ Scripted.stale
      Scripted.both_succeed = Some (r, val', s') /\
    val_key val' = take 4 Scripted.TC0PXYZ ++ [x00] /\
    trace s' = trace Scripted.both_succeed ++
      struct_call Scripted.host 5 (keyinfo_request k) ::
      (if r1 =? kIOReturnSuccess Scripted.host
       then [struct_call Scripted.host 5 (read_request k ki)] else []) /\
    Forall (fun c => call_key c = Some k)
      (drop (length (trace Scripted.both_succeed)) (trace s')).
Proof.
  apply (SMCReadKey_long_key Scripted.host 5 Scripted.TC0PXYZ Scripted.stale
           Scripted.both_succeed 7); [reflexivity | vm_compute; lia].
Defined.


(** * Further properties of SMC.c *)

(** ** Key codec on arbitrary bytes *)

(** Taking a byte out of an or is or-ing the bytes taken out. *)
Lemma slice_lor (a b s : Z) :
  Z.land (Z.shiftr (Z.lor a b) s) 255
  = Z.lor (Z.land (Z.shiftr a s) 255) (Z.land (Z.shiftr b s) 255).
Proof.
  rewrite Z.shiftr_lor. apply Z.land_lor_distr_l.
Qed.

(** Or-ing two 32-bit values gives a 32-bit value. *)
Lemma lor_uint32 (a b : Z) :
  0 <= a < 2 ^ 32 -> 0 <= b < 2 ^ 32 -> 0 <= Z.lor a b < 2 ^ 32.
Proof.
  intros Ha Hb.
  rewrite <- (Z.mod_small a (2 ^ 32)), <- (Z.mod_small b (2 ^ 32)) by assumption.
  rewrite <- !Z.land_ones by lia.
  rewrite <- Z.land_lor_distr_l, Z.land_ones by lia.
  apply Z.mod_pos_bound. lia.
Qed.

Lemma to_uint32_range (z : Z) : 0 <= to_uint32 z < 2 ^ 32.
Proof. apply Z.mod_pos_bound. lia. Qed.

(** The bytes of the term [(uint32_t)key[0] << 24]. *)
Lemma bytes_of_term0 (b : byte) :
  let t := shl32 (to_uint32 (char_value b)) 24 in
  Z.land (Z.shiftr t 24) 255 = byte_value b /\
  Z.land (Z.shiftr t 16) 255 = 0 /\
  Z.land (Z.shiftr t 8) 255 = 0 /\
  Z.land (Z.shiftr t 0) 255 = 0.
Proof. destruct b; repeat split; reflexivity. Qed.

(** The bytes of the term [(uint32_t)key[1] << 16]. *)
Lemma bytes_of_term1 (b : byte) :
  let t := shl32 (to_uint32 (char_value b)) 16 in
  Z.land (Z.shiftr t 24) 255 = sign_fill b /\
  Z.land (Z.shiftr t 16) 255 = byte_value b /\
  Z.land (Z.shiftr t 8) 255 = 0 /\
  Z.land (Z.shiftr t 0) 255 = 0.
Proof. destruct b; repeat split; reflexivity. Qed.

(** The bytes of the term [(uint32_t)key[2] << 8]. *)
Lemma bytes_of_term2 (b : byte) :
  let t := shl32 (to_uint32 (char_value b)) 8 in
  Z.land (Z.shiftr t 24) 255 = sign_fill b /\
  Z.land (Z.shiftr t 16) 255 = sign_fill b /\
  Z.land (Z.shiftr t 8) 255 = byte_value b /\
  Z.land (Z.shiftr t 0) 255 = 0.
Proof. destruct b; repeat split; reflexivity. Qed.

(** The bytes of the term [(uint32_t)key[3]]. *)
Lemma bytes_of_term3 (b : byte) :
  let t := to_uint32 (char_value b) in
  Z.land (Z.shiftr t 24) 255 = sign_fill b /\
  Z.land (Z.shiftr t 16) 255 = sign_fill b /\
  Z.land (Z.shiftr t 8) 255 = sign_fill b /\
  Z.land (Z.shiftr t 0) 255 = byte_value b.
Proof. destruct b; repeat split; reflexivity. Qed.

(** The four bytes of the encoding of any key. *)
Lemma SMCKeyToUInt32_slices (k0 k1 k2 k3 : byte) (rest : list byte) (v : Z) :
  SMCKeyToUInt32 (k0 :: k1 :: k2 :: k3 :: rest) = Some v ->
  Z.land v 255 = byte_value k3 /\
  Z.land (Z.shiftr v 8) 255 = Z.lor (byte_value k2) (sign_fill k3) /\
  Z.land (Z.shiftr v 16) 255
    = Z.lor (Z.lor (byte_value k1) (sign_fill k2)) (sign_fill k3) /\
  Z.land (Z.shiftr v 24) 255
    = Z.lor (Z.lor (Z.lor (byte_value k0) (sign_fill k1)) (sign_fill k2))
            (sign_fill k3).
Proof.
  rewrite SMCKeyToUInt32_cons4. intros [= <-].
  destruct (bytes_of_term0 k0) as (A3 & A2 & A1 & A0).
  destruct (bytes_of_term1 k1) as (B3 & B2 & B1 & B0).
  destruct (bytes_of_term2 k2) as (C3 & C2 & C1 & C0).
  destruct (bytes_of_term3 k3) as (D3 & D2 & D1 & D0).
  cbv zeta in *. repeat split.
  - rewrite <- (Z.shiftr_0_r (Z.lor _ _)), !slice_lor, A0, B0, C0, D0.
    reflexivity.
  - rewrite !slice_lor, A1, B1, C1, D1. reflexivity.
  - rewrite !slice_lor, A2, B2, C2, D2. reflexivity.
  - rewrite !slice_lor, A3, B3, C3, D3. reflexivity.
Qed.

Lemma sign_fill_cases (b : byte) :
  (is_ascii b /\ sign_fill b = 0) \/ (~ is_ascii b /\ sign_fill b = 255).
Proof.
  unfold is_ascii, sign_fill.
  destruct (Z.ltb_spec (byte_value b) 128); [left|right]; split; auto; lia.
Qed.

(** Or-ing 0xFF into a byte leaves it alone only if it is 0xFF already. *)
Lemma byte_lor_255 (k : byte) :
  byte_of_Z (Z.lor (byte_value k) 255) = k <-> k = xff.
Proof.
  destruct k; split; intros H; solve [reflexivity | discriminate H].
Qed.

Lemma list4_eq (a b c d a' b' c' d' : byte) :
  [a; b; c; d] = [a'; b'; c'; d'] <-> a = a' /\ b = b' /\ c = c' /\ d = d'.
Proof.
  split.
  - intros [= -> -> -> ->]. auto.
  - intros (-> & -> & -> & ->). reflexivity.
Qed.

(** X1.  What [SMCKeyToUInt32] returns on any four bytes: a 32-bit value
    whose low byte is [key[3]] and whose every other byte is the key byte of
    that position or-ed with 0xFF for each later key byte from 0x80 up, the
    sign extension of a later byte reaching all bytes above it. *)
Theorem SMCKeyToUInt32_bytes (k0 k1 k2 k3 : byte) (rest : list byte) :
  exists v,
    SMCKeyToUInt32 (k0 :: k1 :: k2 :: k3 :: rest) = Some v /\
    0 <= v < 2 ^ 32 /\
    Z.land v 255 = byte_value k3 /\
    Z.land (Z.shiftr v 8) 255 = Z.lor (byte_value k2) (sign_fill k3) /\
    Z.land (Z.shiftr v 16) 255
      = Z.lor (Z.lor (byte_value k1) (sign_fill k2)) (sign_fill k3) /\
    Z.land (Z.shiftr v 24) 255
      = Z.lor (Z.lor (Z.lor (byte_value k0) (sign_fill k1)) (sign_fill k2))
              (sign_fill k3).
Proof.
  eexists. split; [apply SMCKeyToUInt32_cons4|]. split.
  - repeat apply lor_uint32; apply to_uint32_range.
  - apply (SMCKeyToUInt32_slices k0 k1 k2 k3 rest). apply SMCKeyToUInt32_cons4.
Qed.

(** X2.  The encoding of four bytes reads back as those bytes, most
    significant first, exactly when every byte of the key other than the last
    is 0xFF or is followed by bytes below 0x80 only. *)
Theorem SMCKeyToUInt32_verbatim_iff (k0 k1 k2 k3 : byte) (rest : list byte)
    (v : Z) :
  SMCKeyToUInt32 (k0 :: k1 :: k2 :: k3 :: rest) = Some v ->
  (UInt32ToKey v = [k0; k1; k2; k3] <->
   (k0 = xff \/ (is_ascii k1 /\ is_ascii k2 /\ is_ascii k3)) /\
   (k1 = xff \/ (is_ascii k2 /\ is_ascii k3)) /\
   (k2 = xff \/ is_ascii k3)).
Proof.
  intros Hv.
  destruct (SMCKeyToUInt32_slices k0 k1 k2 k3 rest v Hv) as (S0 & S1 & S2 & S3).
  unfold UInt32ToKey, uint32_byte.
  change (8 * 3) with 24. change (8 * 2) with 16. change (8 * 1) with 8.
  change (8 * 0) with 0. rewrite Z.shiftr_0_r, S0, S1, S2, S3.
  rewrite list4_eq, byte_of_Z_value.
  destruct (sign_fill_cases k1) as [[A1 ->]|[A1 ->]];
    destruct (sign_fill_cases k2) as [[A2 ->]|[A2 ->]];
    destruct (sign_fill_cases k3) as [[A3 ->]|[A3 ->]];
    rewrite ?Z.lor_0_r, ?byte_of_Z_value;
    repeat match goal with
      | |- context [Z.lor (Z.lor ?a 255) 255] =>
          rewrite <- (Z.lor_assoc a 255 255); change (Z.lor 255 255) with 255
      end;
    rewrite ?byte_lor_255; tauto.
Qed.

Lemma SMCKeyToUInt32_verbatim_iff_witness :
  UInt32ToKey 0xC3433050 = [xc3; x43; x30; x50] <->
  (xc3 = xff \/ (is_ascii x43 /\ is_ascii x30 /\ is_ascii x50)) /\
  (x43 = xff \/ (is_ascii x30 /\ is_ascii x50)) /\
  (x30 = xff \/ is_ascii x50).
Proof.
  apply (SMCKeyToUInt32_verbatim_iff xc3 x43 x30 x50 [x00] 0xC3433050).
  reflexivity.
Defined.

(** ** Buffers, continued *)

(** What [strncpy] stores from a terminated string: its characters, at most
    [n] of them, then padding up to [n] bytes. *)
Lemma strncpy_bytes_strlen (src : list byte) (n len : nat) :
  strlen src = Some len ->
  strncpy_bytes src n
  = Some (take (min len n) src ++ replicate (n - min len n) x00).
Proof.
  revert src len. induction n as [|n IH]; intros src len Hs.
  - rewrite Nat.min_0_r. reflexivity.
  - destruct src as [|c src]; [discriminate Hs|].
    simpl in Hs. cbn [strncpy_bytes]. destruct (Byte.eqb c x00).
    + injection Hs as <-. reflexivity.
    + destruct (strlen src) as [len'|] eqn:E; [|discriminate Hs].
      injection Hs as <-. rewrite (IH src len' E). reflexivity.
Qed.

(** ** Connection manager, metadata query and value reader, continued *)

Section Further.

Context {World : Type} (host : IOKit World).

(** X3.  When service discovery yields a handle other than null, [SMCOpen]
    attempts the connection once, returns the status of that attempt
    unchanged, whether success or not, together with the connection slot as
    the attempt left it, and then releases the discovered service handle
    once; the status of the release is dropped. *)
Theorem SMCOpen_service_found (conn conn' : io_connect_t) (s : HostState World)
    (matching : CFDictionaryRef) (service : io_service_t)
    (result released : kern_return_t) (w1 w2 w3 w4 : World) :
  host_IOServiceMatching host "AppleSMC" (world s) = (matching, w1) ->
  host_IOServiceGetMatchingService host (kIOMainPortDefault host) matching w1
    = (service, w2) ->
  service <> 0 ->
  host_IOServiceOpen host service (mach_task_self_ host) 0 conn w2
    = ((result, conn'), w3) ->
  host_IOObjectRelease host service w3 = (released, w4) ->
  SMCOpen host conn s =
  Some (result, conn',
        {| world := w4;
           trace := trace s ++
             [Call_IOServiceMatching "AppleSMC";
              Call_IOServiceGetMatchingService (kIOMainPortDefault host) matching;
              Call_IOServiceOpen service (mach_task_self_ host) 0;
              Call_IOObjectRelease service] |}).
Proof.
  intros Hm Hs Hne Ho Hr.
  unfold SMCOpen, IOServiceMatching, IOServiceGetMatchingService, IOServiceOpen,
    IOObjectRelease, iokit_call.
  unfold mbind, M_bind, mret, M_ret.
  rewrite Hm. cbn [world trace]. rewrite Hs.
  apply Z.eqb_neq in Hne. rewrite Hne.
  cbn [world trace]. rewrite Ho. cbn [world trace]. rewrite Hr.
  rewrite <- !app_assoc. reflexivity.
Qed.

(** X4.  When the service answers the metadata request with success,
    [SMCGetKeyInfo] returns success and the three fields of the response's
    key info, [dataAttributes] included; nothing of what the caller's record
    held remains, and one call has been issued. *)
Theorem SMCGetKeyInfo_success (conn : io_connect_t) (key : Z)
    (keyInfo : SMCKeyData_keyInfo_t) (s : HostState World)
    (out : SMCKeyData_t) (sz : Z) (w : World) :
  service_reply host conn (keyinfo_request key) (world s)
    = (kIOReturnSuccess host, out, sz, w) ->
  SMCGetKeyInfo host conn key keyInfo s =
  Some (kIOReturnSuccess host,
        {| keyInfo_dataSize := keyInfo_dataSize (data_keyInfo out);
           keyInfo_dataType := keyInfo_dataType (data_keyInfo out);
           keyInfo_dataAttributes := keyInfo_dataAttributes (data_keyInfo out) |},
        after s (struct_call host conn (keyinfo_request key)) w).
Proof.
  intros Hreply. rewrite SMCGetKeyInfo_run, Hreply, Z.eqb_refl.
  destruct out as [? ? ? [? ? ?] ? ? ? ? ?]. reflexivity.
Qed.

(** X5.  [SMCReadKey] has a defined outcome exactly when four bytes are
    readable through [key]: three characters and their terminator are enough,
    a shorter buffer is read out of bounds, whatever the host does. *)
Theorem SMCReadKey_defined_iff (conn : io_connect_t) (key : list byte)
    (val : SMCVal_t) (s : HostState World) :
  SMCReadKey host conn key val s = None <-> (length key < 4)%nat.
Proof.
  split.
  - intros Hnone.
    destruct (Nat.lt_ge_cases (length key) 4) as [Hlt|Hge]; [exact Hlt|].
    exfalso.
    destruct (strncpy_bytes_defined key 4 Hge) as (cs & Hcs & Hcslen).
    destruct (proj2 (SMCKeyToUInt32_defined key) Hge) as [k Hk].
    rewrite (SMCReadKey_run host conn key val s k cs Hk Hcs Hcslen) in Hnone.
    rewrite SMCGetKeyInfo_run in Hnone.
    destruct (service_reply host conn (keyinfo_request k) (world s))
      as [[[r1 out1] sz1] w1].
    destruct (negb (r1 =? kIOReturnSuccess host)); [discriminate Hnone|].
    destruct (service_reply host conn _ _) as [[[r2 out2] sz2] w2].
    discriminate Hnone.
  - intros Hlt.
    assert (Hk : SMCKeyToUInt32 key = None).
    { destruct (SMCKeyToUInt32 key) eqn:E; [|reflexivity].
      assert (4 <= length key)%nat by (apply SMCKeyToUInt32_defined; eauto). lia. }
    unfold SMCReadKey.
    unfold mbind at 1, M_bind at 1, defined at 1.
    destruct (strncpy _ key 4); [|reflexivity].
    unfold mbind at 1, M_bind at 1, defined at 1. rewrite Hk. reflexivity.
Qed.

(** X6.  On every readable key the key field [SMCReadKey] leaves is five
    bytes ending in a terminator, and for a terminated key string it holds the
    string's characters, at most four of them, followed by zero bytes only:
    a string shorter than four characters is padded, a longer one cut. *)
Theorem SMCReadKey_key_field (conn : io_connect_t) (key : list byte)
    (val : SMCVal_t) (s : HostState World) :
  (4 <= length key)%nat ->
  exists r val' s',
    SMCReadKey host conn key val s = Some (r, val', s') /\
    length (val_key val') = 5%nat /\
    val_key val' !! 4%nat = Some x00 /\
    (forall len, strlen key = Some len ->
       val_key val' = take (min len 4) key ++ replicate (5 - min len 4) x00).
Proof.
  intros Hge.
  destruct (strncpy_bytes_defined key 4 Hge) as (cs & Hcs & Hcslen).
  destruct (proj2 (SMCKeyToUInt32_defined key) Hge) as [k Hk].
  assert (Hfield : forall len, strlen key = Some len ->
            cs ++ [x00] = take (min len 4) key ++ replicate (5 - min len 4) x00).
  { intros len Hs. rewrite (strncpy_bytes_strlen key 4 len Hs) in Hcs.
    injection Hcs as <-. rewrite <- app_assoc. f_equal.
    replace (5 - min len 4)%nat with (S (4 - min len 4)) by lia.
    rewrite replicate_S_end. reflexivity. }
  assert (Hlast : (cs ++ [x00]) !! 4%nat = Some x00).
  { rewrite lookup_app_r by lia. rewrite Hcslen. reflexivity. }
  assert (Hlen5 : length (cs ++ [x00]) = 5%nat)
    by (rewrite length_app, Hcslen; reflexivity).
  rewrite (SMCReadKey_run host conn key val s k cs Hk Hcs Hcslen).
  rewrite SMCGetKeyInfo_run.
  destruct (service_reply host conn (keyinfo_request k) (world s))
    as [[[r1 out1] sz1] w1].
  destruct (negb (r1 =? kIOReturnSuccess host)).
  - do 3 eexists. split; [reflexivity|]. cbn [val_key]. auto.
  - destruct (service_reply host conn _ _) as [[[r2 out2] sz2] w2].
    do 3 eexists. split; [reflexivity|]. cbn [val_key]. auto.
Qed.

(** X7.  On every readable key [SMCReadKey] issues the metadata request and,
    only when it was answered with success, one value-read request that
    carries the same encoded key and the data size of the metadata response;
    nothing is retried.  The status returned is the one the host gave to the
    last call issued. *)
Theorem SMCReadKey_calls (conn : io_connect_t) (key : list byte)
    (val : SMCVal_t) (s : HostState World) (k : Z) (r1 : kern_return_t)
    (out1 : SMCKeyData_t) (sz1 : Z) (w1 : World) :
  SMCKeyToUInt32 key = Some k ->
  service_reply host conn (keyinfo_request k) (world s) = (r1, out1, sz1, w1) ->
  exists r val' s',
    SMCReadKey host conn key val s = Some (r, val', s') /\
    trace s' = trace s ++
      struct_call host conn (keyinfo_request k) ::
      (if r1 =? kIOReturnSuccess host
       then [struct_call host conn (read_request k (data_keyInfo out1))]
       else []) /\
    (r1 <> kIOReturnSuccess host -> r = r1 /\ world s' = w1) /\
    (r1 = kIOReturnSuccess host ->
     forall r2 out2 sz2 w2,
       service_reply host conn (read_request k (data_keyInfo out1)) w1
         = (r2, out2, sz2, w2) ->
       r = r2 /\ world s' = w2).
Proof.
  intros Hk Hreply.
  assert (Hge : (4 <= length key)%nat) by (apply SMCKeyToUInt32_defined; eauto).
  destruct (strncpy_bytes_defined key 4 Hge) as (cs & Hcs & Hcslen).
  rewrite (SMCReadKey_run host conn key val s k cs Hk Hcs Hcslen).
  rewrite SMCGetKeyInfo_run, Hreply.
  destruct (Z.eqb_spec r1 (kIOReturnSuccess host)) as [Heq|Hne]; cbn [negb].
  - cbn [after world trace].
    destruct (service_reply host conn (read_request k (data_keyInfo out1)) w1)
      as [[[r2 out2] sz2] w2] eqn:Hreply2.
    do 3 eexists. split; [reflexivity|]. cbn [after world trace].
    rewrite <- app_assoc. split; [reflexivity|]. split; [tauto|].
    intros _ r2' out2' sz2' w2' [= <- <- <- <-]. auto.
  - do 3 eexists. split; [reflexivity|]. cbn [after world trace].
    split; [reflexivity|]. split; [auto|]. intros Heq. contradiction.
Qed.

(** X8.  When both requests are answered with success, [SMCReadKey] returns
    success and a record whose [dataSize] and [dataType] are those of the
    metadata response and whose buffer is the first 32 bytes of the value
    response; the [dataAttributes] of the metadata are not kept. *)
Theorem SMCReadKey_success_record (conn : io_connect_t) (key : list byte)
    (val : SMCVal_t) (s : HostState World) (k : Z)
    (out1 out2 : SMCKeyData_t) (sz1 sz2 : Z) (w1 w2 : World) :
  SMCKeyToUInt32 key = Some k ->
  service_reply host conn (keyinfo_request k) (world s)
    = (kIOReturnSuccess host, out1, sz1, w1) ->
  service_reply host conn (read_request k (data_keyInfo out1)) w1
    = (kIOReturnSuccess host, out2, sz2, w2) ->
  exists kf,
    SMCReadKey host conn key val s =
    Some (kIOReturnSuccess host,
          {| val_key := kf;
             val_dataSize := keyInfo_dataSize (data_keyInfo out1);
             val_dataType := keyInfo_dataType (data_keyInfo out1);
             val_bytes := take SMC_KEY_DATA_SIZE (data_bytes out2) |},
          {| world := w2;
             trace := trace s ++
               [struct_call host conn (keyinfo_request k);
                struct_call host conn (read_request k (data_keyInfo out1))] |}).
Proof.
  intros Hk Hreply1 Hreply2.
  assert (Hge : (4 <= length key)%nat) by (apply SMCKeyToUInt32_defined; eauto).
  destruct (strncpy_bytes_defined key 4 Hge) as (cs & Hcs & Hcslen).
  exists (cs ++ [x00]).
  rewrite (SMCReadKey_run host conn key val s k cs Hk Hcs Hcslen).
  rewrite SMCGetKeyInfo_run, Hreply1, Z.eqb_refl. cbn [negb after world trace].
  rewrite Hreply2, Z.eqb_refl. unfold after. cbn [world trace].
  rewrite <- app_assoc. reflexivity.
Qed.

End Further.

(** ** The further properties on concrete runs *)

Lemma SMCOpen_service_found_witness :
  SMCOpen Scripted.host 7 (Scripted.start open_refused) =
  Some (Scripted.error, 99,
        {| world := open_refused;
           trace := [Call_IOServiceMatching "AppleSMC";
                     Call_IOServiceGetMatchingService 0 4096;
                     Call_IOServiceOpen 2051 259 0;
                     Call_IOObjectRelease 2051] |}).
Proof.
  apply (SMCOpen_service_found Scripted.host 7 99 (Scripted.start open_refused)
           4096 2051 Scripted.error Scripted.success
           open_refused open_refused open_refused open_refused);
    [reflexivity | reflexivity | vm_compute; lia | reflexivity | reflexivity].
Defined.

Lemma SMCGetKeyInfo_success_witness :
  SMCGetKeyInfo Scripted.host 5 0x54433050 Scripted.stale_keyInfo
    Scripted.read_fails =
  Some (Scripted.success,
        {| keyInfo_dataSize := 4; keyInfo_dataType := Scripted.flt;
           keyInfo_dataAttributes := 128 |},
        after Scripted.read_fails
          (struct_call Scripted.host 5 (keyinfo_request 0x54433050))
          (Scripted.with_replies
             [(Scripted.error,
               Scripted.response 4 Scripted.flt Scripted.payload)])).
Proof.
  apply (SMCGetKeyInfo_success Scripted.host 5 0x54433050 Scripted.stale_keyInfo
           Scripted.read_fails
           (Scripted.response 4 Scripted.flt Scripted.payload) 80).
  reflexivity.
Defined.

Lemma SMCReadKey_key_field_witness :
  exists r val' s',
    SMCReadKey Scripted.host 5 [x54; x43; x00; x50] Scripted.stale
      Scripted.metadata_fails = Some (r, val', s') /\
    length (val_key val') = 5%nat /\
    val_key val' !! 4%nat = Some x00 /\
    (forall len, strlen [x54; x43; x00; x50] = Some len ->
       val_key val'
       = take (min len 4) [x54; x43; x00; x50] ++ replicate (5 - min len 4) x00).
Proof.
  apply (SMCReadKey_key_field Scripted.host 5 [x54; x43; x00; x50]
           Scripted.stale Scripted.metadata_fails).
  vm_compute. lia.
Defined.

Lemma SMCReadKey_calls_witness :
  exists r val' s',
    SMCReadKey Scripted.host 5 Scripted.TC0P Scripted.stale Scripted.read_fails
      = Some (r, val', s') /\
    trace s' = trace Scripted.read_fails ++
      struct_call Scripted.host 5 (keyinfo_request 0x54433050) ::
      (if Scripted.success =? kIOReturnSuccess Scripted.host
       then [struct_call Scripted.host 5
               (read_request 0x54433050
                  (data_keyInfo
                     (Scripted.response 4 Scripted.flt Scripted.payload)))]
       else []) /\
    (Scripted.success <> kIOReturnSuccess Scripted.host ->
     r = Scripted.success /\
     world s' = Scripted.with_replies
                  [(Scripted.error,
                    Scripted.response 4 Scripted.flt Scripted.payload)]) /\
    (Scripted.success = kIOReturnSuccess Scripted.host ->
     forall r2 out2 sz2 w2,
       service_reply Scripted.host 5
         (read_request 0x54433050
            (data_keyInfo (Scripted.response 4 Scripted.flt Scripted.payload)))
         (Scripted.with_replies
            [(Scripted.error,
              Scripted.response 4 Scripted.flt Scripted.payload)])
       = (r2, out2, sz2, w2) ->
       r = r2 /\ world s' = w2).
Proof.
  apply (SMCReadKey_calls Scripted.host 5 Scripted.TC0P Scripted.stale
           Scripted.read_fails 0x54433050 Scripted.success
           (Scripted.response 4 Scripted.flt Scripted.payload) 80);
    reflexivity.
Defined.

Lemma SMCReadKey_success_record_witness :
  exists kf,
    SMCReadKey Scripted.host 5 Scripted.TC0P Scripted.stale Scripted.both_succeed =
    Some (Scripted.success,
          {| val_key := kf; val_dataSize := 4; val_dataType := Scripted.flt;
             val_bytes := take SMC_KEY_DATA_SIZE Scripted.payload |},
          {| world := Scripted.with_replies [];
             trace := trace Scripted.both_succeed ++
               [struct_call Scripted.host 5 (keyinfo_request 0x54433050);
                struct_call Scripted.host 5
                  (read_request 0x54433050 Scripted.info)] |}).
Proof.
  apply (SMCReadKey_success_record Scripted.host 5 Scripted.TC0P Scripted.stale
           Scripted.both_succeed 0x54433050
           (Scripted.response 4 Scripted.flt Scripted.payload)
           (Scripted.response 4 Scripted.flt Scripted.payload) 80 80
           (Scripted.with_replies
              [(Scripted.success,
                Scripted.response 4 Scripted.flt Scripted.payload)])
           (Scripted.with_replies []));
    reflexivity.
Defined.

(** ** Opening and closing a session *)

(** X9.  Closing what [SMCOpen] opened: when a service is found, [SMCOpen]
    followed by [SMCClose] on the connection it produced closes exactly the
    handle the connection attempt wrote, after the service handle has been
    released, and returns the status of the close unchanged. *)
Theorem SMCOpen_then_SMCClose {World : Type} (host : IOKit World)
    (conn conn' : io_connect_t) (s : HostState World)
    (matching : CFDictionaryRef) (service : io_service_t)
    (result released closed : kern_return_t) (w1 w2 w3 w4 w5 : World) :
  host_IOServiceMatching host "AppleSMC" (world s) = (matching, w1) ->
  host_IOServiceGetMatchingService host (kIOMainPortDefault host) matching w1
    = (service, w2) ->
  service <> 0 ->
  host_IOServiceOpen host service (mach_task_self_ host) 0 conn w2
    = ((result, conn'), w3) ->
  host_IOObjectRelease host service w3 = (released, w4) ->
  host_IOServiceClose host conn' w4 = (closed, w5) ->
  (opened ← SMCOpen host conn; SMCClose host (snd opened)) s =
  Some (closed,
        {| world := w5;
           trace := trace s ++
             [Call_IOServiceMatching "AppleSMC";
              Call_IOServiceGetMatchingService (kIOMainPortDefault host) matching;
              Call_IOServiceOpen service (mach_task_self_ host) 0;
              Call_IOObjectRelease service;
              Call_IOServiceClose conn'] |}).
Proof.
  intros Hm Hs Hne Ho Hr Hc.
  unfold SMCOpen, SMCClose, IOServiceMatching, IOServiceGetMatchingService,
    IOServiceOpen, IOObjectRelease, IOServiceClose, iokit_call.
  unfold mbind, M_bind, mret, M_ret.
  rewrite Hm. cbn [world trace]. rewrite Hs.
  apply Z.eqb_neq in Hne. rewrite Hne.
  cbn [world trace]. rewrite Ho. cbn [world trace]. rewrite Hr.
  cbn [world trace snd]. rewrite Hc.
  rewrite <- !app_assoc. reflexivity.
Qed.

Lemma SMCOpen_then_SMCClose_witness :
  (opened ← SMCOpen Scripted.host 7; SMCClose Scripted.host (snd opened))
    (Scripted.start (Scripted.with_replies [])) =
  Some (Scripted.success,
        {| world := Scripted.with_replies [];
           trace := [Call_IOServiceMatching "AppleSMC";
                     Call_IOServiceGetMatchingService 0 4096;
                     Call_IOServiceOpen 2051 259 0;
                     Call_IOObjectRelease 2051;
                     Call_IOServiceClose 5] |}).
Proof.
  apply (SMCOpen_then_SMCClose Scripted.host 7 5
           (Scripted.start (Scripted.with_replies [])) 4096 2051
           Scripted.success Scripted.success Scripted.success
           (Scripted.with_replies []) (Scripted.with_replies [])
           (Scripted.with_replies []) (Scripted.with_replies [])
           (Scripted.with_replies []));
    [reflexivity | reflexivity | vm_compute; lia
    | reflexivity | reflexivity | reflexivity].
Defined.
